(** * Company vector search: the Streamlit script, embedded and verified

    Shallow embedding of [companyDescriptionEmbeddingsSearch.py]: the text
    helpers the script uses ([str.replace], [str.split], [str.strip]),
    the cached embedding call [get_embedding], the query construction and
    execution of [vector_search], the submission handler and the results
    display.  The embedding provider and the database are external
    services; they appear as an interface whose implementation is
    arbitrary. *)

From stdpp Require Import base option list strings gmap fin_maps.
From Stdlib Require Import ZArith Lia.

Local Open Scope Z_scope.

(** ** Python text *)

(** A Python [str] is a sequence of Unicode code points. *)
Abbreviation char := N (only parsing).
Abbreviation pystr := (list N) (only parsing).

(** A source literal made of ASCII characters. *)
Definition lit (s : string) : pystr :=
  map Ascii.N_of_ascii (String.list_ascii_of_string s).

Definition COMMA : char := 44%N.
Definition NEWLINE : char := 10%N.
Definition SPACE : char := 32%N.

(** [str.isspace] on one code point: the table of CPython's
    [_PyUnicode_IsWhitespace]. *)
Definition isspace (c : char) : bool :=
  ((9 <=? c) && (c <=? 13) || (28 <=? c) && (c <=? 32)
   || (c =? 133) || (c =? 160) || (c =? 5760)
   || (8192 <=? c) && (c <=? 8202)
   || (c =? 8232) || (c =? 8233) || (c =? 8239) || (c =? 8287)
   || (c =? 12288))%N.

(** Truth value of a string or a list: non-empty. *)
Definition truthy {A} (l : list A) : bool :=
  match l with [] => false | _ :: _ => true end.

(** [text.replace("\n", " ")] *)
Definition replace_newlines (text : pystr) : pystr :=
  map (fun c => if (c =? NEWLINE)%N then SPACE else c) text.

(** [s.lstrip()], [s.rstrip()] and [s.strip()] with no argument. *)
Fixpoint lstrip (s : pystr) : pystr :=
  match s with
  | [] => []
  | c :: s' => if isspace c then lstrip s' else s
  end.

Definition rstrip (s : pystr) : pystr := rev (lstrip (rev s)).

Definition strip (s : pystr) : pystr := rstrip (lstrip s).

(** [s.split(sep)] for a one-character separator: every occurrence of
    the separator cuts, empty pieces are kept, and the result always has
    at least one piece ([''.split(',') == ['']]). *)
Fixpoint split (sep : char) (s : pystr) : list pystr :=
  match s with
  | [] => [[]]
  | c :: s' =>
      if (c =? sep)%N then [] :: split sep s'
      else match split sep s' with
           | [] => [[c]]
           | piece :: pieces => (c :: piece) :: pieces
           end
  end.

(** [sep.join(pieces)] for a one-character separator. *)
Fixpoint join (sep : char) (pieces : list pystr) : pystr :=
  match pieces with
  | [] => []
  | [p] => p
  | p :: ps => p ++ sep :: join sep ps
  end.

(** The industry filter as the submission handler computes it:
    [[ind.strip() for ind in industry_input.split(',') if ind.strip()]
     if industry_input else []]. *)
Definition parse_industries (industry_input : pystr) : list pystr :=
  if truthy industry_input
  then map strip (filter (fun ind => truthy (strip ind) = true)
                         (split COMMA industry_input))
  else [].

(** The same parsing in the words of the specification: split on commas,
    trim each entry, drop the entries that are empty after trimming. *)
Definition parse_industries_spec (industry_input : pystr) : list pystr :=
  filter (fun ind => ind ≠ []) (map strip (split COMMA industry_input)).


(** ** The query sent to the database *)

(** A condition on one field of the [filter] document: the plain value
    ["USA"] (equality) or [{"$in": [...]}]. *)
Inductive filter_cond :=
  | FieldEq (v : pystr)
  | FieldIn (vs : list pystr).

(** The [search_stage] dict.  Its keys are fixed, so it is a record; the
    [filter] entry is built with a dict unpacking, so it stays a map. *)
Record search_stage (vec : Type) := SearchStage {
  ss_index : pystr;
  ss_path : pystr;
  ss_queryVector : vec;
  ss_numCandidates : Z;
  ss_limit : Z;
  ss_filter : gmap string filter_cond
}.
Arguments SearchStage {vec}.
Arguments ss_index {vec}.
Arguments ss_path {vec}.
Arguments ss_queryVector {vec}.
Arguments ss_numCandidates {vec}.
Arguments ss_limit {vec}.
Arguments ss_filter {vec}.

Inductive projection :=
  | Keep                      (* 1 *)
  | Drop_                     (* 0 *)
  | Meta (name : pystr).      (* {"$meta": name} *)

Inductive stage (vec : Type) :=
  | VectorSearch (s : search_stage vec)          (* {"$vectorSearch": s} *)
  | Project (fields : list (string * projection)). (* {"$project": fields} *)
Arguments VectorSearch {vec}.
Arguments Project {vec}.

(** What a call that may raise gives back.  [vector_search] tells
    [OperationFailure] from any other exception. *)
Inductive outcome (A : Type) :=
  | Returned (a : A)
  | RaisedOperationFailure
  | RaisedOther.
Arguments Returned {A}.
Arguments RaisedOperationFailure {A}.
Arguments RaisedOther {A}.

(** ** The external services *)

(** [openai_client.embeddings.create] and [collection.aggregate].  Both
    live outside the process: [remote] is whatever state they keep, and a
    call may change it.  An embedding request that raises (or whose
    response has no [data[0].embedding]) is [None]: the [except Exception]
    of [get_embedding] catches every such case alike. *)
Class Services := {
  scalar : Type;
  document : Type;
  remote : Type;
  embeddings_create : remote → pystr → pystr → option (list scalar) * remote;
  collection_aggregate :
    remote → list (stage (list scalar)) → outcome (list document) * remote
}.

(** An embedding is a list of numbers; a pipeline is a list of stages. *)
Abbreviation embedding := (list scalar) (only parsing).
Abbreviation pipeline := (list (stage (list scalar))) (only parsing).

Section App.
Context `{Services}.

(** The messages [st.error] is called with. *)
Inductive error_kind :=
  | OpenAIError             (* "OpenAI Error: Failed to generate embedding." *)
  | MongoOperationError     (* "MongoDB Operation Error: The search failed." *)
  | SearchUnexpectedError.  (* "An unexpected error occurred during the search" *)

(** What a run of the script does that can be observed from outside:
    outbound requests, elements put on the page, and assignments to
    [st.session_state.search_results_df]. *)
Inductive event :=
  | EmbeddingRequest (input model : pystr)
  | AggregateRequest (p : pipeline)
  | StError (k : error_kind)
  | StWarning
  | StInfo
  | StResults (rows : list document)
  | Assign (v : option (list document)).

(** The state that survives from one run of the script to the next.
    [search_results_df] is [None] (no search yet), an empty frame or a
    frame with rows: a data frame built from a list of records has one
    row per record, and [pd.DataFrame()] has none. *)
Record world := World {
  search_results_df : option (list document);
  embedding_cache : gmap pystr (option embedding);
  services : remote
}.

Definition M (A : Type) : Type := world → A * world * list event.

Definition ret {A} (a : A) : M A := fun w => (a, w, []).

Definition bind {A B} (m : M A) (k : A → M B) : M B :=
  fun w =>
    let '(a, w1, evs1) := m w in
    let '(b, w2, evs2) := k a w1 in
    (b, w2, evs1 ++ evs2).

Definition emit (e : event) : M unit := fun w => (tt, w, [e]).

End App.

Notation "'do' x <- m ; k" := (bind m (fun x => k))
  (at level 10, x name, m at level 100, k at level 200).
Notation "m ;; k" := (bind m (fun _ => k))
  (at level 100, k at level 200, right associativity).

Section Script.
Context `{Services}.

(** *** st.session_state *)

Definition assign_results (v : option (list document)) : M unit :=
  fun w =>
    (tt,
     World v (embedding_cache w) (services w),
     [Assign v]).

(** *** get_embedding *)

Definition DEFAULT_MODEL : pystr := lit "text-embedding-ada-002".

(** The body of [get_embedding], without its decorator. *)
Definition get_embedding_body (text model : pystr) : M (option embedding) :=
  fun w =>
    let text := replace_newlines text in
    let '(response, r) := embeddings_create (services w) text model in
    let w' := World (search_results_df w) (embedding_cache w) r in
    match response with
    | Some v => (Some v, w', [EmbeddingRequest text model])
    | None => (None, w', [EmbeddingRequest text model; StError OpenAIError])
    end.

(** [@st.cache_data]: the value is looked up under the arguments the
    function is called with; on a miss the body runs and whatever it
    returns is stored, on a hit the body does not run and the page
    elements it produced are shown again.  The script always calls
    [get_embedding] with the default [model], so the key is the text. *)
Definition get_embedding (text : pystr) : M (option embedding) :=
  fun w =>
    match embedding_cache w !! text with
    | Some (Some v) => (Some v, w, [])
    | Some None => (None, w, [StError OpenAIError])
    | None =>
        let '(v, w1, evs) := get_embedding_body text DEFAULT_MODEL w in
        (v,
         World (search_results_df w1) (<[text := v]> (embedding_cache w1))
               (services w1),
         evs)
    end.

(** *** vector_search *)

(** A dict display [{k: v, **extra}]: the unpacked entries are written
    after [k], so they win on a common key. *)
Definition unpack_into {V} (base extra : gmap string V) : gmap string V :=
  extra ∪ base.

Definition search_filter (industries_list : list pystr)
  : gmap string filter_cond :=
  unpack_into
    {[ "company_headquarters_country" := FieldEq (lit "USA") ]}
    (if truthy industries_list
     then {[ "industry" := FieldIn industries_list ]}
     else ∅).

Definition build_search_stage (query_vector : embedding)
    (num_candidates limit : Z) (industries_list : list pystr)
  : search_stage embedding :=
  {| ss_index := lit "vector_index_for_company_search";
     ss_path := lit "company_description_embedding";
     ss_queryVector := query_vector;
     ss_numCandidates := num_candidates;
     ss_limit := limit;
     ss_filter := search_filter industries_list |}.

Definition project_fields : list (string * projection) :=
  [ ("score", Meta (lit "vectorSearchScore"));
    ("company_name", Keep);
    ("company_description", Keep);
    ("company_headquarters_country", Keep);
    ("industry", Keep);
    ("_id", Drop_) ].

Definition build_pipeline (query_vector : embedding)
    (num_candidates limit : Z) (industries_list : list pystr) : pipeline :=
  [ VectorSearch
      (build_search_stage query_vector num_candidates limit industries_list);
    Project project_fields ].

Definition vector_search (query_vector : option embedding)
    (num_candidates limit : Z) (industries_list : list pystr)
  : M (option (list document)) :=
  match query_vector with
  | None => ret None
  | Some qv =>
      fun w =>
        let pipeline := build_pipeline qv num_candidates limit industries_list in
        let '(res, r) := collection_aggregate (services w) pipeline in
        let w' := World (search_results_df w) (embedding_cache w) r in
        match res with
        | Returned results => (Some results, w', [AggregateRequest pipeline])
        | RaisedOperationFailure =>
            (None, w', [AggregateRequest pipeline; StError MongoOperationError])
        | RaisedOther =>
            (None, w', [AggregateRequest pipeline; StError SearchUnexpectedError])
        end
  end.

(** *** The form *)


Record form := Form {
  description_input : pystr;
  industry_input : pystr;
  limit_input : Z;
  candidates_input : Z;
  submit_button : bool
}.



(** *** Search logic *)

(** Truth value of something that is [None] or a list. *)
Definition truthy_opt {A} (v : option (list A)) : bool :=
  match v with Some l => truthy l | None => false end.

(** [pd.DataFrame(records)]: one row per record. *)
Definition DataFrame (records : option (list document)) : list document :=
  default [] records.

Definition search_logic (f : form) : M unit :=
  assign_results None ;;
  if negb (truthy (description_input f)) then emit StWarning
  else
    do query_vector <- get_embedding (description_input f);
    if truthy_opt query_vector then
      let industries_list := parse_industries (industry_input f) in
      do search_results <-
        vector_search query_vector (candidates_input f) (limit_input f)
                      industries_list;
      if truthy_opt search_results
      then assign_results (Some (DataFrame search_results))
      else assign_results (Some (DataFrame None))
    else ret tt.

(** *** Results display *)

Definition results_display : M unit :=
  fun w =>
    match search_results_df w with
    | None => (tt, w, [])
    | Some df =>
        if (Z.of_nat (length df) =? 0) then (tt, w, [StInfo])
        else (tt, w, [StResults df])
    end.

(** One run of the script, from the form down. *)
Definition run_script (f : form) : M unit :=
  (if submit_button f then search_logic f else ret tt) ;;
  results_display.

(** *** Reading a run *)

Definition result {A} (x : A * world * list event) : A := x.1.1.
Definition final {A} (x : A * world * list event) : world := x.1.2.
Definition events {A} (x : A * world * list event) : list event := x.2.

Definition is_assign (e : event) : bool :=
  match e with Assign _ => true | _ => false end.

(** The pipelines handed to [collection.aggregate] during a run. *)
Definition queries (evs : list event) : list pipeline :=
  omap (fun e => match e with AggregateRequest p => Some p | _ => None end) evs.

(** The texts sent to the embedding provider during a run. *)
Definition embedding_inputs (evs : list event) : list pystr :=
  omap (fun e => match e with EmbeddingRequest t _ => Some t | _ => None end) evs.

(** The [$vectorSearch] stages of a pipeline. *)
Definition search_stages (p : pipeline) : list (search_stage embedding) :=
  omap (fun s => match s with
                 | VectorSearch st => Some st
                 | Project _ => None
                 end) p.

(** Several runs of the script, one after the other, in one process. *)
Fixpoint run_session (fs : list form) : M unit :=
  match fs with
  | [] => ret tt
  | f :: fs' => run_script f ;; run_session fs'
  end.

End Script.

(** ** A concrete provider and database

    Used to run the script on explicit inputs: each service is either up
    or down, the provider answers with a one-component vector and the
    database with the first [limit] companies of a three-company
    catalogue (a [limit] below one is refused). *)
Module Demo.

Record backend := Backend { provider_up : bool; database_up : bool }.

Definition catalogue : list pystr := [lit "Acme"; lit "Globex"; lit "Initech"].

Definition create (r : backend) (text model : pystr)
  : option (list Z) * backend :=
  (if provider_up r then Some [Z.of_nat (length text)] else None, r).

Definition aggregate (r : backend) (p : list (stage (list Z)))
  : outcome (list pystr) * backend :=
  (if database_up r then
     match p with
     | VectorSearch st :: _ =>
         if 1 <=? ss_limit st
         then Returned (take (Z.to_nat (ss_limit st)) catalogue)
         else RaisedOperationFailure
     | _ => RaisedOther
     end
   else RaisedOperationFailure,
   r).

Definition services : Services :=
  {| scalar := Z; document := pystr; remote := backend;
     embeddings_create := create; collection_aggregate := aggregate |}.

(** A fresh process: nothing searched, nothing cached. *)
Definition fresh (provider database : bool) : @world services :=
  @World services None ∅ (Backend provider database).

(** A process that still holds the rows of an earlier search. *)
Definition stale (provider database : bool) : @world services :=
  @World services (Some catalogue) ∅ (Backend provider database).

(** The form with the default numbers, submitted. *)
Definition submit (description industries : pystr) : form :=
  Form description industries 1000 10000 true.

(** ["a\nb"] and ["a b"]. *)
Definition two_lines : pystr := [97; 10; 98]%N.
Definition one_line : pystr := lit "a b".



End Demo.

(** ** Properties of queries and runs *)

Section Properties.
Context `{Services}.

(** The stage restricts the headquarters country to the constant "USA". *)
Definition restricted_to_usa (st : search_stage embedding) : Prop :=
  ss_filter st !! "company_headquarters_country" = Some (FieldEq (lit "USA")).

(** The stage carries no condition on the industry. *)
Definition no_industry_filter (st : search_stage embedding) : Prop :=
  ss_filter st !! "industry" = None.


(** The pipeline opens with a [$vectorSearch] stage, and that stage
    satisfies [P]. *)
Definition opens_with (P : search_stage embedding → Prop) (p : pipeline)
  : Prop :=
  ∃ st rest, p = VectorSearch st :: rest ∧ P st.

(** Elements of the page that show a result state. *)
Definition is_display (e : event) : bool :=
  match e with StInfo | StResults _ => true | _ => false end.

Definition is_warning (e : event) : bool :=
  match e with StWarning => true | _ => false end.

(** A description made of whitespace only (or of nothing). *)
Definition blank (text : pystr) : bool := forallb isspace text.

End Properties.

Section Display.
Context `{Services}.

(** What the page shows for a result state: nothing, the "no results"
    notice, or the table. *)
Definition shown_for (v : option (list document)) : list event :=
  match v with
  | None => []
  | Some [] => [StInfo]
  | Some rows => [StResults rows]
  end.

Definition is_error (e : event) : bool :=
  match e with StError _ => true | _ => false end.

End Display.

(** ** The whole script: start-up, then the page *)

(** What [MongoClient(MONGO_URI)] followed by the [ismaster] command
    gives: a client, a [ConnectionFailure], or any other exception. *)
Inductive connect_outcome :=
  | Connected
  | RaisedConnectionFailure
  | RaisedOtherError.

(** The services of the page together with the two calls of start-up:
    the construction of the OpenAI client ([true] when it does not raise)
    and the connection to MongoDB. *)
Class Platform := {
  platform_services : Services;
  openai_client_init : @remote platform_services → bool * @remote platform_services;
  mongo_connect :
    @remote platform_services → connect_outcome * @remote platform_services
}.
#[global] Existing Instance platform_services.

Section Startup.
Context `{Platform}.

(** The messages of the start-up [st.error] calls. *)
Inductive startup_error :=
  | OpenAIInitError        (* "Failed to initialize OpenAI client." *)
  | MongoConnectionError   (* "MongoDB Connection Error: Could not connect" *)
  | MongoUnexpectedError.  (* "An unexpected error occurred during MongoDB connection" *)

Inductive script_event :=
  | ConnectAttempt
  | StartupError (k : startup_error)
  | Page (e : event).

(** What a Streamlit process keeps between runs of the script: the
    session state (a dict), the entries of [st.cache_data] for
    [get_embedding], whether [st.cache_resource] holds the client of
    [get_mongo_client], and the state of the outside services. *)
Record process := Process {
  session_state : gmap string (option (list document));
  data_cache : gmap pystr (option embedding);
  client_cached : bool;
  outside : remote
}.

(** A run either reaches the end of the script or is cut by [st.stop()]. *)
Inductive ending := Finished | Stopped.

Definition RESULTS_KEY : string := "search_results_df".

(** [if 'search_results_df' not in st.session_state:
       st.session_state.search_results_df = None] *)
Definition init_session_state (ss : gmap string (option (list document)))
  : gmap string (option (list document)) :=
  match ss !! RESULTS_KEY with
  | None => <[RESULTS_KEY := None]> ss
  | Some _ => ss
  end.

(** [st.session_state.search_results_df], once the key is there. *)
Definition stored_results (ss : gmap string (option (list document)))
  : option (list document) :=
  default None (ss !! RESULTS_KEY).

(** [get_mongo_client] under [@st.cache_resource]: a cached client is
    returned as it is; otherwise the connection is tried, a client that
    answers is cached and returned, and a failure is reported and stops
    the run ([None]), leaving nothing in the cache. *)
Definition get_mongo_client (cached : bool) (r : remote)
  : option unit * bool * remote * list script_event :=
  if cached then (Some tt, true, r, [])
  else
    let '(o, r') := mongo_connect r in
    match o with
    | Connected => (Some tt, true, r', [ConnectAttempt])
    | RaisedConnectionFailure =>
        (None, false, r', [ConnectAttempt; StartupError MongoConnectionError])
    | RaisedOtherError =>
        (None, false, r', [ConnectAttempt; StartupError MongoUnexpectedError])
    end.

(** One run of the whole script on a submitted or untouched form. *)
Definition script (f : form) (p : process)
  : ending * process * list script_event :=
  let ss := init_session_state (session_state p) in
  let '(ok, r1) := openai_client_init (outside p) in
  if negb ok then
    (Stopped, Process ss (data_cache p) (client_cached p) r1,
     [StartupError OpenAIInitError])
  else
    let '(client, cached, r2, evs) := get_mongo_client (client_cached p) r1 in
    match client with
    | None => (Stopped, Process ss (data_cache p) cached r2, evs)
    | Some _ =>
        let '(_, w, page) :=
          run_script f (World (stored_results ss) (data_cache p) r2) in
        (Finished,
         Process (<[RESULTS_KEY := search_results_df w]> ss)
                 (embedding_cache w) cached (services w),
         evs ++ map Page page)
    end.

(** Several runs of the whole script in one process, with what each
    run did. *)
Fixpoint script_session (fs : list form) (p : process)
  : process * list (ending * list script_event) :=
  match fs with
  | [] => (p, [])
  | f :: fs' =>
      let '(e, p1, evs) := script f p in
      let '(p2, rest) := script_session fs' p1 in
      (p2, (e, evs) :: rest)
  end.

Definition run_ending (x : ending * process * list script_event) : ending :=
  x.1.1.
Definition run_process (x : ending * process * list script_event) : process :=
  x.1.2.
Definition run_events (x : ending * process * list script_event)
  : list script_event := x.2.

(** What a run of the whole script did of the page. *)
Definition page_events (evs : list script_event) : list event :=
  omap (fun e => match e with Page x => Some x | _ => None end) evs.

Definition is_page (e : script_event) : bool :=
  match e with Page _ => true | _ => false end.

Definition is_connect (e : script_event) : bool :=
  match e with ConnectAttempt => true | _ => false end.

Definition is_startup_error (e : script_event) : bool :=
  match e with StartupError _ => true | _ => false end.

End Startup.

(** The provider of [Demo] with a database that answers every query
    with the same five companies, whatever [limit] it is given. *)
Module Lax.

Definition five : list pystr :=
  [lit "Acme"; lit "Globex"; lit "Initech"; lit "Umbrella"; lit "Hooli"].

Definition aggregate (r : Demo.backend) (p : list (stage (list Z)))
  : outcome (list pystr) * Demo.backend :=
  (Returned five, r).

Definition services : Services :=
  {| scalar := Z; document := pystr; remote := Demo.backend;
     embeddings_create := Demo.create; collection_aggregate := aggregate |}.

Definition fresh : @world services :=
  @World services None ∅ (Demo.Backend true true).

End Lax.

(** A provider whose answer is an empty vector, on the database of
    [Demo]. *)
Module Hollow.

Definition create (r : Demo.backend) (text model : pystr)
  : option (list Z) * Demo.backend :=
  (Some [], r).

Definition services : Services :=
  {| scalar := Z; document := pystr; remote := Demo.backend;
     embeddings_create := create; collection_aggregate := Demo.aggregate |}.

Definition fresh : @world services :=
  @World services None ∅ (Demo.Backend true true).

End Hollow.

(** A concrete platform on the provider and database of [Demo]: the
    OpenAI client is built when the provider is up, the connection
    succeeds when the database is up. *)
Module DemoPlatform.

Definition platform : Platform :=
  {| platform_services := Demo.services;
     openai_client_init := fun r : Demo.backend => (Demo.provider_up r, r);
     mongo_connect := fun r : Demo.backend =>
       (if Demo.database_up r then Connected else RaisedConnectionFailure, r) |}.

(** A process that has just started. *)
Definition started (provider database : bool) : @process platform :=
  @Process platform ∅ ∅ false (Demo.Backend provider database).

(** The form as it is before anything is typed or pressed. *)
Definition untouched : form := Form [] [] 1000 10000 false.

End DemoPlatform.

(** ** Text: splitting, joining and trimming *)

Section Text.

Example split_blank : split COMMA [] = [[]].
Proof. reflexivity. Qed.

Example split_keeps_empty_pieces :
  split COMMA (lit "AI, SaaS , ") = [lit "AI"; lit " SaaS "; lit " "].
Proof. reflexivity. Qed.

Example strip_both_ends : strip (lit "  SaaS ") = lit "SaaS".
Proof. reflexivity. Qed.

Lemma split_not_nil sep s : split sep s ≠ [].
Proof.
  destruct s as [|c s]; simpl; [done|].
  destruct (c =? sep)%N; [done|]. by destruct (split sep s).
Qed.

Lemma split_no_sep sep p : sep ∉ p → split sep p = [p].
Proof.
  induction p as [|c p IH]; intros Hp; simpl; [done|].
  apply not_elem_of_cons in Hp as [Hc Hp].
  destruct (N.eqb_spec c sep) as [->|_]; [done|].
  by rewrite IH.
Qed.

Lemma split_app_sep sep p rest :
  sep ∉ p → split sep (p ++ sep :: rest) = p :: split sep rest.
Proof.
  induction p as [|c p IH]; intros Hp; simpl.
  - by rewrite N.eqb_refl.
  - apply not_elem_of_cons in Hp as [Hc Hp].
    destruct (N.eqb_spec c sep) as [->|_]; [done|].
    by rewrite IH.
Qed.

(** Splitting undoes joining, piece for piece. *)
Lemma split_join sep pieces :
  pieces ≠ [] → Forall (fun p => sep ∉ p) pieces →
  split sep (join sep pieces) = pieces.
Proof.
  induction pieces as [|p ps IH]; intros Hne Hall; [done|].
  apply Forall_cons in Hall as [Hp Hps].
  destruct ps as [|q ps].
  - simpl. by apply split_no_sep.
  - change (join sep (p :: q :: ps)) with (p ++ sep :: join sep (q :: ps)).
    rewrite split_app_sep; [|done]. by rewrite IH.
Qed.

Lemma truthy_true {A} (l : list A) : truthy l = true ↔ l ≠ [].
Proof. by destruct l. Qed.

(** The comprehension [[f(x) for x in xs if f(x)]] filters what it maps. *)
Lemma comprehension_strip (xs : list pystr) :
  map strip (filter (fun ind => truthy (strip ind) = true) xs)
  = filter (fun ind => ind ≠ []) (map strip xs).
Proof.
  induction xs as [|x xs IH]; [done|].
  rewrite filter_cons. simpl map. rewrite filter_cons.
  repeat case_decide; try done;
    repeat match goal with
           | Ht : truthy _ = true |- _ => apply truthy_true in Ht
           | Ht : ¬ truthy _ = true |- _ => rewrite truthy_true in Ht
           end; try done.
  simpl. by rewrite IH.
Qed.

Lemma lstrip_idemp s : lstrip (lstrip s) = lstrip s.
Proof.
  induction s as [|c s IH]; [done|]. simpl.
  destruct (isspace c) eqn:Hc; [done|]. simpl. by rewrite Hc.
Qed.

Lemma lstrip_snoc s c : isspace c = false → lstrip (s ++ [c]) = lstrip s ++ [c].
Proof.
  intros Hc. induction s as [|a s IH]; simpl.
  - by rewrite Hc.
  - by destruct (isspace a).
Qed.

Lemma rstrip_idemp s : rstrip (rstrip s) = rstrip s.
Proof. unfold rstrip. by rewrite rev_involutive, lstrip_idemp. Qed.

(** Trailing whitespace goes without bringing leading whitespace back. *)
Lemma lstrip_rstrip s : lstrip s = s → lstrip (rstrip s) = rstrip s.
Proof.
  destruct s as [|c s]; [done|]. simpl.
  destruct (isspace c) eqn:Hc.
  - intros Heq. exfalso.
    assert (Hlen : (length (lstrip s) ≤ length s)%nat).
    { clear. induction s as [|a s IH]; simpl; [lia|].
      destruct (isspace a); simpl; lia. }
    rewrite Heq in Hlen. simpl in Hlen. lia.
  - intros _. unfold rstrip. simpl rev.
    rewrite lstrip_snoc by done. rewrite rev_app_distr. simpl.
    by rewrite Hc.
Qed.

Lemma strip_idemp s : strip (strip s) = strip s.
Proof.
  unfold strip.
  rewrite (lstrip_rstrip (lstrip s)) by apply lstrip_idemp.
  apply rstrip_idemp.
Qed.

(** The parsing of the handler is the parsing the specification words. *)
Lemma parse_industries_refines s :
  parse_industries s = parse_industries_spec s.
Proof.
  unfold parse_industries, parse_industries_spec.
  destruct s as [|c s]; [done|].
  change (truthy (c :: s)) with true. cbv iota.
  apply comprehension_strip.
Qed.

(** Every parsed term is non-empty and carries no surrounding whitespace. *)
Lemma parse_industries_trimmed s :
  Forall (fun t => t ≠ [] ∧ strip t = t) (parse_industries s).
Proof.
  rewrite parse_industries_refines. unfold parse_industries_spec.
  apply Forall_forall. intros t Ht.
  apply list_elem_of_filter in Ht as [Hne Ht].
  apply list_elem_of_fmap in Ht as (raw & -> & _).
  split; [done|apply strip_idemp].
Qed.

End Text.

(** ** Runs of the script *)

(** Case analysis on everything a run branches on. *)
Ltac unfold_run :=
  unfold run_script, search_logic, vector_search, get_embedding,
    get_embedding_body, results_display, assign_results, emit, bind, ret,
    result, final, events, DataFrame in *.

Ltac branch :=
  first
    [ match goal with
      | |- context [@lookup ?K ?A ?M ?I ?t ?c] =>
          is_var c; destruct (@lookup K A M I t c) as [[?|]|] eqn:?
      end
    | match goal with
      | |- context [embeddings_create ?r ?t ?m] =>
          destruct (embeddings_create r t m) as [[?|] ?] eqn:?
      end
    | match goal with
      | |- context [collection_aggregate ?r ?p] =>
          destruct (collection_aggregate r p) as [[?| |] ?] eqn:?
      end
    | match goal with
      | |- context [truthy ?l] => is_var l; destruct l
      end
    | match goal with
      | |- context [Z.of_nat (length ?l) =? 0] => is_var l; destruct l
      end
    | match goal with
      | |- context [match ?x with _ => _ end] => is_var x; destruct x
      end ].

Ltac run_cases := unfold_run; simpl in *; repeat (progress branch; simpl in *).

Section Runs.
Context `{Services}.

Implicit Types (w : world) (f : form) (t : pystr).

Local Arguments replace_newlines : simpl never.
Local Arguments parse_industries : simpl never.
Local Arguments build_pipeline : simpl never.
Local Arguments lit : simpl never.

Lemma search_filter_country inds :
  search_filter inds !! "company_headquarters_country"
  = Some (FieldEq (lit "USA")).
Proof.
  unfold search_filter, unpack_into.
  destruct (truthy inds).
  - rewrite lookup_union_r; [apply lookup_singleton_eq|].
    by apply lookup_singleton_ne.
  - rewrite (left_id_L ∅ (∪)). apply lookup_singleton_eq.
Qed.

Lemma search_filter_industry inds :
  search_filter inds !! "industry"
  = if truthy inds then Some (FieldIn inds) else None.
Proof.
  unfold search_filter, unpack_into.
  destruct (truthy inds).
  - rewrite lookup_union_l'; [apply lookup_singleton_eq|].
    rewrite lookup_singleton_eq. by eexists.
  - rewrite (left_id_L ∅ (∪)). by apply lookup_singleton_ne.
Qed.

(** A run sends at most one query, and it is the pipeline built from the
    form: the embedding of the description, the two numbers in the order
    [vector_search] takes them, and the parsed industries. *)
Lemma run_script_queries f w :
  queries (events (run_script f w)) = []
  ∨ ∃ qv, truthy qv = true ∧
      queries (events (run_script f w))
      = [build_pipeline qv (candidates_input f) (limit_input f)
           (parse_industries (industry_input f))].
Proof.
  destruct f as [d ind lim cand sb], w as [s c r].
  destruct sb, d as [|ch d]; run_cases;
    solve [by left | right; eexists; split; [|reflexivity]; reflexivity].
Qed.

(** The provider is asked at most once in a run, and what it is sent is
    the description with its newlines replaced. *)
Lemma run_script_embedding_inputs f w :
  embedding_inputs (events (run_script f w)) = []
  ∨ embedding_inputs (events (run_script f w))
    = [replace_newlines (description_input f)].
Proof.
  destruct f as [d ind lim cand sb], w as [s c r].
  destruct sb, d as [|ch d]; run_cases; eauto.
Qed.

(** [get_embedding] asks the provider exactly when the text it is called
    with is not a key of the cache. *)
Lemma get_embedding_request_iff t w :
  embedding_inputs (events (get_embedding t w)) = []
  ↔ is_Some (embedding_cache w !! t).
Proof.
  destruct w as [s c r]. run_cases; split; intros Hx;
    try done; try (by eexists); by destruct Hx.
Qed.

(** ... and afterwards the text is a key, whatever the call returned. *)
Lemma get_embedding_stores t w :
  embedding_cache (final (get_embedding t w)) !! t
  = Some (result (get_embedding t w)).
Proof.
  destruct w as [s c r]. run_cases; try done; apply lookup_insert_eq.
Qed.

(** Entries of the cache are never dropped or changed. *)
Lemma run_script_cache_kept f w t :
  is_Some (embedding_cache w !! t) →
  embedding_cache (final (run_script f w)) !! t = embedding_cache w !! t.
Proof.
  destruct f as [d ind lim cand sb], w as [s c r]. simpl.
  intros Hc.
  destruct sb, d as [|ch d]; run_cases; try done;
    (rewrite lookup_insert_ne; [done|]); intros <-;
    destruct Hc as [? Hc]; congruence.
Qed.

Lemma run_session_cache_kept fs w t :
  is_Some (embedding_cache w !! t) →
  embedding_cache (final (run_session fs w)) !! t = embedding_cache w !! t.
Proof.
  revert w. induction fs as [|f fs IH]; intros w Hc; [done|].
  simpl. unfold bind.
  pose proof (run_script_cache_kept f w t Hc) as Hf.
  destruct (run_script f w) as [[u w1] evs1]. unfold final in Hf. simpl in Hf.
  specialize (IH w1). rewrite Hf in IH. specialize (IH Hc).
  destruct (run_session fs w1) as [[u2 w2] evs2].
  unfold final in *. simpl in *. congruence.
Qed.

(** A submitted, non-empty description is a key of the cache afterwards. *)
Lemma run_script_caches_description f w :
  submit_button f = true → description_input f ≠ [] →
  is_Some (embedding_cache (final (run_script f w)) !! description_input f).
Proof.
  destruct f as [d ind lim cand sb], w as [s c r]. simpl.
  intros -> Hd. destruct d as [|ch d]; [done|].
  run_cases; try (by eexists); rewrite lookup_insert_eq; by eexists.
Qed.

(** A cached description is served without asking the provider. *)
Lemma run_script_cached_no_request f w :
  is_Some (embedding_cache w !! description_input f) →
  embedding_inputs (events (run_script f w)) = [].
Proof.
  destruct f as [d ind lim cand sb], w as [s c r]. simpl.
  intros [v Hc].
  destruct sb, d as [|ch d]; run_cases; congruence.
Qed.

Lemma search_stages_build qv nc lim inds :
  search_stages (build_pipeline qv nc lim inds)
  = [build_search_stage qv nc lim inds].
Proof. reflexivity. Qed.

(** Whatever holds of the one pipeline a run can build holds of every
    query the run sends. *)
Lemma run_script_queries_Forall (P : search_stage embedding → Prop) f w :
  (∀ qv, P (build_search_stage qv (candidates_input f) (limit_input f)
              (parse_industries (industry_input f)))) →
  Forall (fun p => Forall P (search_stages p)) (queries (events (run_script f w))).
Proof.
  intros HP.
  destruct (run_script_queries f w) as [->|(qv & _ & ->)]; [constructor|].
  repeat constructor. apply HP.
Qed.


(** A submitted run with a description, told in terms of the two calls
    it makes.  Neither call reads the result state, so [get_embedding]
    may be taken at the state the run started from. *)
Lemma run_script_submit f w :
  submit_button f = true → description_input f ≠ [] →
  run_script f w =
    let '(qv, w1, ev1) := get_embedding (description_input f) w in
    if truthy_opt qv then
      let '(sr, w2, ev2) :=
        vector_search qv (candidates_input f) (limit_input f)
                      (parse_industries (industry_input f)) w1 in
      let df := if truthy_opt sr then DataFrame sr else DataFrame None in
      (tt, World (Some df) (embedding_cache w2) (services w2),
       Assign None :: ev1 ++ ev2 ++ Assign (Some df) :: shown_for (Some df))
    else (tt, World None (embedding_cache w1) (services w1), Assign None :: ev1).
Proof.
  destruct f as [d ind lim cand sb], w as [s c r]. simpl.
  intros -> Hd. destruct d as [|ch d]; [done|].
  run_cases; simplify_eq; reflexivity.
Qed.

(** Every query of a run is a pipeline that opens with the
    [$vectorSearch] stage built from the form. *)
Lemma run_script_queries_open (P : search_stage embedding → Prop) f w :
  (∀ qv, P (build_search_stage qv (candidates_input f) (limit_input f)
              (parse_industries (industry_input f)))) →
  Forall (opens_with P) (queries (events (run_script f w))).
Proof.
  intros HP.
  destruct (run_script_queries f w) as [->|(qv & _ & ->)]; [constructor|].
  repeat constructor. eexists _, _. split; [reflexivity|apply HP].
Qed.

(** A submission whose embedding is a non-empty vector sends one query,
    whether the query then returns or raises. *)
Lemma run_script_sends_query f w qv :
  submit_button f = true →
  description_input f ≠ [] →
  result (get_embedding (description_input f) w) = Some qv →
  qv ≠ [] →
  queries (events (run_script f w))
  = [build_pipeline qv (candidates_input f) (limit_input f)
       (parse_industries (industry_input f))].
Proof.
  intros Hsb Hd Hemb Hqv. rewrite (run_script_submit f w Hsb Hd).
  revert Hemb. destruct w as [s c r].
  unfold get_embedding, get_embedding_body, result, events. simpl.
  destruct (c !! description_input f) as [[v|]|]; simpl;
    [ intros [= ->] | intros [=]
    | destruct (embeddings_create _ _ _) as [[v|] r1]; simpl; intros [= ->] ];
    (destruct qv as [|x qv]; [done|]); simpl; unfold vector_search;
    by destruct (collection_aggregate _ _) as [[[|row rows]| |] r2].
Qed.

Lemma run_script_sends_stage (P : search_stage embedding → Prop) f w qv :
  submit_button f = true →
  description_input f ≠ [] →
  result (get_embedding (description_input f) w) = Some qv →
  qv ≠ [] →
  P (build_search_stage qv (candidates_input f) (limit_input f)
       (parse_industries (industry_input f))) →
  ∃ st rest, queries (events (run_script f w)) = [VectorSearch st :: rest]
             ∧ P st.
Proof.
  intros Hsb Hd Hemb Hqv HP.
  rewrite (run_script_sends_query f w qv Hsb Hd Hemb Hqv).
  eexists _, _. split; [reflexivity|exact HP].
Qed.

(** A failed search is stored as an empty frame, and the page then says
    that the search returned nothing. *)
Lemma search_failure_reaches_empty f w qv :
  submit_button f = true →
  description_input f ≠ [] →
  result (get_embedding (description_input f) w) = Some qv →
  qv ≠ [] →
  (∀ rows,
     (collection_aggregate
        (services (final (get_embedding (description_input f) w)))
        (build_pipeline qv (candidates_input f) (limit_input f)
           (parse_industries (industry_input f)))).1 ≠ Returned rows) →
  search_results_df (final (run_script f w)) = Some []
  ∧ StInfo ∈ events (run_script f w).
Proof.
  destruct f as [d ind lim cand sb], w as [s c r]. simpl.
  intros -> Hd Hemb Hqv Hfail. destruct d as [|ch d]; [done|].
  assert (Hsearch : ∀ r1,
            (∀ rows,
               (collection_aggregate r1
                  (build_pipeline qv cand lim (parse_industries ind))).1
               ≠ Returned rows) →
            ∃ k r2,
              collection_aggregate r1
                (build_pipeline qv cand lim (parse_industries ind))
              = (k, r2) ∧ (k = RaisedOperationFailure ∨ k = RaisedOther)).
  { intros r1 Hr1.
    destruct (collection_aggregate r1 _) as [[rows| |] r2] eqn:Hagg; eauto.
    exfalso. by apply (Hr1 rows). }
  revert Hemb Hfail. unfold_run. simpl.
  destruct (c !! (ch :: d)) as [[v|]|] eqn:Hc; simpl.
  - intros [= ->] Hfail. destruct qv as [|x qv]; [done|]. simpl.
    destruct (Hsearch _ Hfail) as (k & r2 & -> & [-> | ->]); simpl;
      (split; [done|]); apply list_elem_of_In; simpl; tauto.
  - intros [=].
  - destruct (embeddings_create r _ _) as [[v|] r1]; simpl; intros [= ->] Hfail.
    destruct qv as [|x qv]; [done|]. simpl.
    destruct (Hsearch _ Hfail) as (k & r2 & -> & [-> | ->]); simpl;
      (split; [done|]); apply list_elem_of_In; simpl; tauto.
Qed.

End Runs.

(** ** The specification's statements, on any provider and database *)

Section Claims.
Context `{Services}.

Implicit Types (w : world) (f : form) (t : pystr).

Local Arguments replace_newlines : simpl never.
Local Arguments parse_industries : simpl never.
Local Arguments build_pipeline : simpl never.
Local Arguments lit : simpl never.

(** C2, amended: a submission whose description is the empty string puts
    a warning on the page and does nothing else: no request goes to the
    embedding provider or to the database, the cache and the services are
    left as they were, and the result state is None (Unset). *)
Theorem empty_description_warns_only f w :
  submit_button f = true →
  description_input f = [] →
  run_script f w
  = (tt, World None (embedding_cache w) (services w), [Assign None; StWarning]).
Proof.
  destruct f as [d ind lim cand sb], w as [s c r]. simpl.
  intros -> ->. reflexivity.
Qed.

(** C3: when get_embedding returns None for the submitted description,
    the result state is None (Unset) at the end of the run, no query was
    sent to the database and the page shows no result element. *)
Theorem embedding_failure_leaves_unset f w :
  submit_button f = true →
  result (get_embedding (description_input f) w) = None →
  search_results_df (final (run_script f w)) = None
  ∧ queries (events (run_script f w)) = []
  ∧ filter (fun e => is_display e = true) (events (run_script f w)) = [].
Proof.
  destruct f as [d ind lim cand sb], w as [s c r]. simpl.
  intros -> Hemb. destruct d as [|ch d]; [done|].
  revert Hemb. run_cases; intros [=]; done.
Qed.

(** C4: the filter of every search stage that vector_search builds maps
    company_headquarters_country to the constant USA, whatever the query
    vector, the two numbers and the industries (none included).  A call
    of vector_search with a vector sends exactly one query, a pipeline
    that opens with such a stage; every query a run of the script sends
    is a pipeline that opens with such a stage; and a submission whose
    embedding is a non-empty vector does send one. *)
Theorem country_filter_in_every_query :
  (∀ qv nc lim inds, restricted_to_usa (build_search_stage qv nc lim inds))
  ∧ (∀ qv nc lim inds w,
       ∃ st rest,
         queries (events (vector_search (Some qv) nc lim inds w))
         = [VectorSearch st :: rest]
         ∧ restricted_to_usa st
         ∧ Forall restricted_to_usa (search_stages (VectorSearch st :: rest)))
  ∧ (∀ f w,
       Forall (fun p => opens_with restricted_to_usa p
                        ∧ Forall restricted_to_usa (search_stages p))
              (queries (events (run_script f w))))
  ∧ (∀ f w qv,
       submit_button f = true →
       description_input f ≠ [] →
       result (get_embedding (description_input f) w) = Some qv →
       qv ≠ [] →
       ∃ st rest,
         queries (events (run_script f w)) = [VectorSearch st :: rest]
         ∧ restricted_to_usa st).
Proof.
  split_and!.
  - intros. apply search_filter_country.
  - intros qv nc lim inds [s c r].
    exists (build_search_stage qv nc lim inds), [Project project_fields].
    split_and!.
    + run_cases; done.
    + apply search_filter_country.
    + repeat constructor. apply search_filter_country.
  - intros f w.
    pose proof (run_script_queries_open restricted_to_usa f w
                  (fun qv => search_filter_country _)) as Hopen.
    pose proof (run_script_queries_Forall restricted_to_usa f w
                  (fun qv => search_filter_country _)) as Hall.
    rewrite Forall_forall in *. intros q Hq. split; [by apply Hopen|by apply Hall].
  - intros f w qv Hsb Hd Hemb Hqv.
    apply (run_script_sends_stage restricted_to_usa f w qv); try done.
    apply search_filter_country.
Qed.

(** C5: with an empty industry field no query of the run has an industry
    condition; the field "AI, SaaS , " parses to AI and SaaS, as a list
    and as a set; in general the parsed list is the input split on
    commas, each piece stripped, the empty ones dropped, so every term
    kept is non-empty and has no surrounding whitespace. *)
Theorem industry_filter_parsing :
  (∀ d lim cand sb w,
     Forall (fun p => Forall no_industry_filter (search_stages p))
            (queries (events (run_script (Form d [] lim cand sb) w))))
  ∧ parse_industries (lit "AI, SaaS , ") = [lit "AI"; lit "SaaS"]
  ∧ (list_to_set (parse_industries (lit "AI, SaaS , ")) : gset pystr)
    = {[ lit "AI"; lit "SaaS" ]}
  ∧ (∀ s, parse_industries s = parse_industries_spec s)
  ∧ (∀ s, Forall (fun t => t ≠ [] ∧ strip t = t) (parse_industries s)).
Proof.
  assert (Hex : parse_industries (lit "AI, SaaS , ") = [lit "AI"; lit "SaaS"])
    by (vm_compute; reflexivity).
  split_and!.
  - intros d lim cand sb w. apply run_script_queries_Forall.
    intros qv. simpl. unfold no_industry_filter. simpl.
    by rewrite search_filter_industry.
  - exact Hex.
  - rewrite Hex. simpl. by rewrite (right_id_L ∅ (∪)).
  - apply parse_industries_refines.
  - apply parse_industries_trimmed.
Qed.


(** C9: vector_search called with None as its query vector returns None
    at once: the state is untouched and nothing is sent or shown, for
    all values of the three other parameters. *)
Theorem vector_search_none nc lim inds w :
  vector_search None nc lim inds w = (None, w, []).
Proof. reflexivity. Qed.

(** C6, amended: a description submitted again later in the same
    process, whatever was run in between, is served from the cache with
    no request to the provider, and the first submission sends at most
    one request, whose input is the description with newlines replaced
    by spaces.  The cache is keyed by the text as submitted, before that
    replacement: get_embedding asks the provider exactly when the text
    it is called with is not yet a key, and stores what it returns under
    that text. *)
Theorem same_text_embedded_once f1 mid f2 w :
  submit_button f1 = true →
  description_input f2 = description_input f1 →
  (length (embedding_inputs (events (run_script f1 w))) ≤ 1)%nat
  ∧ Forall (fun t => t = replace_newlines (description_input f1))
           (embedding_inputs (events (run_script f1 w)))
  ∧ embedding_inputs
      (events (run_script f2
                 (final (run_session mid (final (run_script f1 w)))))) = []
  ∧ (∀ t w', embedding_inputs (events (get_embedding t w')) = []
             ↔ is_Some (embedding_cache w' !! t))
  ∧ (∀ t w', embedding_cache (final (get_embedding t w')) !! t
             = Some (result (get_embedding t w'))).
Proof.
  intros Hsb Hsame. split_and!.
  - destruct (run_script_embedding_inputs f1 w) as [->| ->]; simpl; lia.
  - destruct (run_script_embedding_inputs f1 w) as [->| ->];
      repeat constructor.
  - destruct (decide (description_input f1 = [])) as [Hd|Hd].
    + rewrite Hd in Hsame. clear -Hsame.
      destruct f2 as [d ind lim cand sb]. simpl in Hsame. subst d.
      destruct (final _) as [s c r]. destruct sb; run_cases; done.
    + apply run_script_cached_no_request. rewrite Hsame.
      pose proof (run_script_caches_description f1 w Hsb Hd) as Hc.
      by rewrite run_session_cache_kept.
  - apply get_embedding_request_iff.
  - apply get_embedding_stores.
Qed.

(** The events of a submission after its first one: [work] holds no
    assignment, and [shown] is empty or is the final assignment followed
    by what the display makes of it. *)
Local Ltac shape :=
  match goal with
  | |- ∃ work shown, Assign None :: ?l = _ ∧ _ =>
      first
        [ solve [ exists l, []; split_and!;
                  [by rewrite app_nil_r | repeat constructor | by left] ]
        | solve [ exists (removelast (removelast l)),
                    (drop (length l - 2)%nat l);
                  simpl; split_and!;
                  [ reflexivity
                  | repeat constructor
                  | right; eexists; split; [|reflexivity]; reflexivity ] ] ]
  end.

(** C8: a submission first assigns None (Unset) to the result state,
    before the description is checked and before any request; the only
    other assignment it can make is the last thing it does before the
    display, and it stores a frame (Empty or Populated) that the display
    then shows.  What the run does and shows does not depend on the
    result state it started from, and when get_embedding fails the state
    ends as None and no result element is shown. *)
Theorem results_cleared_first f w :
  submit_button f = true →
  (∃ work shown,
     events (run_script f w) = Assign None :: work ++ shown
     ∧ Forall (fun e => is_assign e = false ∧ is_display e = false) work
     ∧ (shown = [] ∧ search_results_df (final (run_script f w)) = None
        ∨ ∃ rows,
            shown = [Assign (Some rows);
                     if truthy rows then StResults rows else StInfo]
            ∧ search_results_df (final (run_script f w)) = Some rows))
  ∧ (∀ s', run_script f (World s' (embedding_cache w) (services w))
           = run_script f w)
  ∧ (result (get_embedding (description_input f) w) = None →
     search_results_df (final (run_script f w)) = None
     ∧ filter (fun e => is_display e = true) (events (run_script f w)) = []).
Proof.
  destruct f as [d ind lim cand sb], w as [s c r]. simpl.
  intros ->. split_and!.
  - destruct d as [|ch d]; run_cases; shape.
  - intros s'. reflexivity.
  - destruct d as [|ch d]; [done|].
    intros Hemb. revert Hemb. run_cases; intros [=]; done.
Qed.

(** C10: the parsed industries are a list in input order that keeps
    repetitions: for comma-free pieces joined by commas, the result is
    the stripped pieces with the empty ones removed, and a non-empty
    term occurs in it as often as it occurs among the stripped pieces.
    When the list is not empty, every query of the run is a pipeline
    that opens with a stage holding that list, as it is, under $in in
    the industry condition, and a submission whose embedding is a
    non-empty vector does send such a query. *)
Theorem industries_kept_in_order pieces t d lim cand sb w :
  pieces ≠ [] →
  Forall (fun p => COMMA ∉ p) pieces →
  t ≠ [] →
  let inds := parse_industries (join COMMA pieces) in
  inds = filter (fun x => x ≠ []) (strip <$> pieces)
  ∧ length (filter (fun x => x = t) inds)
    = length (filter (fun p => strip p = t) pieces)
  ∧ (inds ≠ [] →
     Forall (opens_with (fun st =>
               ss_filter st !! "industry" = Some (FieldIn inds)))
            (queries (events
               (run_script (Form d (join COMMA pieces) lim cand sb) w))))
  ∧ (inds ≠ [] →
     ∀ qv,
       sb = true →
       d ≠ [] →
       result (get_embedding d w) = Some qv →
       qv ≠ [] →
       ∃ st rest,
         queries (events
            (run_script (Form d (join COMMA pieces) lim cand sb) w))
         = [VectorSearch st :: rest]
         ∧ ss_filter st !! "industry" = Some (FieldIn inds)).
Proof.
  intros Hne Hcomma Ht inds.
  assert (Hinds : inds = filter (fun x => x ≠ []) (strip <$> pieces)).
  { unfold inds. rewrite parse_industries_refines.
    unfold parse_industries_spec. by rewrite split_join. }
  assert (Hin : inds ≠ [] → ∀ qv,
            ss_filter (build_search_stage qv cand lim inds) !! "industry"
            = Some (FieldIn inds)).
  { intros Hnil qv. simpl. rewrite search_filter_industry.
    by destruct inds. }
  split_and!.
  - exact Hinds.
  - rewrite Hinds. clear -Ht.
    induction pieces as [|p ps IH]; [done|].
    rewrite fmap_cons, !filter_cons.
    destruct (decide (strip p = t)) as [Heq|Hneq].
    + rewrite decide_True by congruence. rewrite filter_cons.
      rewrite decide_True by done. simpl. by rewrite IH.
    + destruct (decide (strip p ≠ [])) as [Hn|Hn]; [|exact IH].
      rewrite filter_cons. by rewrite decide_False.
  - intros Hnil. apply run_script_queries_open. intros qv. by apply Hin.
  - intros Hnil qv Hsb Hd Hemb Hqv.
    apply (run_script_sends_stage
             (fun st => ss_filter st !! "industry" = Some (FieldIn inds))
             (Form d (join COMMA pieces) lim cand sb) w qv); try done.
    by apply Hin.
Qed.

End Claims.

(** ** The script on explicit inputs *)

Module DemoRuns.
Import Demo.

#[local] Existing Instance Demo.services.

(** C1: the provider answers, the database raises OperationFailure, and
    the run ends with the error on the page, an empty frame in the
    result state and the "no results" notice shown. *)
Theorem search_failure_stored_as_empty :
  let run := run_script (submit (lit "AI startup for logistics") [])
                        (fresh true false) in
  embedding_inputs (events run) = [lit "AI startup for logistics"]
  ∧ length (queries (events run)) = 1%nat
  ∧ drop 3 (events run)
    = [StError MongoOperationError; Assign (Some []); StInfo]
  ∧ search_results_df (final run) = Some [].
Proof. vm_compute. repeat split. Qed.

(** C2, counterexample: a description of one space is not empty: it is embedded and
    searched, no warning is shown and the result state is populated. *)
Lemma whitespace_description_is_searched :
  let f := submit (lit " ") [] in
  let run := run_script f (fresh true true) in
  submit_button f = true
  ∧ blank (description_input f) = true
  ∧ embedding_inputs (events run) = [lit " "]
  ∧ length (queries (events run)) = 1%nat
  ∧ filter (fun e => is_warning e = true) (events run) = []
  ∧ search_results_df (final run) = Some catalogue.
Proof. vm_compute. repeat split. Qed.

(** C6, counterexample: two descriptions that differ by a newline
    against a space reach the provider as the same text, and each of
    them is sent: the second submission is not served from the cache. *)
Lemma normalised_text_is_not_the_key :
  let run1 := run_script (submit two_lines []) (fresh true true) in
  let run2 := run_script (submit one_line []) (final run1) in
  replace_newlines two_lines = replace_newlines one_line
  ∧ embedding_inputs (events run1) = [lit "a b"]
  ∧ embedding_inputs (events run2) = [lit "a b"].
Proof. vm_compute. repeat split. Qed.

Lemma empty_description_warns_only_witness :
  submit_button (submit [] []) = true
  ∧ description_input (submit [] []) = []
  ∧ run_script (submit [] []) (fresh true true)
    = (tt, World None ∅ (Backend true true), [Assign None; StWarning]).
Proof.
  split_and!; [reflexivity..|].
  apply (empty_description_warns_only (submit [] []) (fresh true true));
    reflexivity.
Defined.

Lemma embedding_failure_leaves_unset_witness :
  let f := submit (lit "AI startup") [] in
  let w := fresh false true in
  result (get_embedding (description_input f) w) = None
  ∧ search_results_df (final (run_script f w)) = None
  ∧ queries (events (run_script f w)) = []
  ∧ filter (fun e => is_display e = true) (events (run_script f w)) = [].
Proof.
  split; [reflexivity|].
  apply (embedding_failure_leaves_unset (submit (lit "AI startup") [])
           (fresh false true)); reflexivity.
Defined.



Lemma country_filter_in_every_query_witness :
  ∃ st rest,
    queries (events (run_script (submit (lit "AI startup") []) (fresh true true)))
    = [VectorSearch st :: rest]
    ∧ restricted_to_usa st.
Proof.
  pose proof country_filter_in_every_query as (_ & _ & _ & Hrun).
  apply (Hrun (submit (lit "AI startup") []) (fresh true true) [10]);
    [reflexivity | vm_compute; discriminate | reflexivity | discriminate].
Defined.

Lemma same_text_embedded_once_witness :
  let f := submit (lit "AI startup") [] in
  let g := submit (lit "robots") (lit "AI") in
  let w := fresh true true in
  embedding_inputs (events (run_script f w)) = [lit "AI startup"]
  ∧ embedding_inputs
      (events (run_script f (final (run_session [g] (final (run_script f w))))))
    = [].
Proof.
  split; [reflexivity|].
  apply (same_text_embedded_once (submit (lit "AI startup") [])
           [submit (lit "robots") (lit "AI")]
           (submit (lit "AI startup") []) (fresh true true));
    reflexivity.
Defined.

Lemma results_cleared_first_witness :
  let f := submit (lit "AI startup") [] in
  let w := stale false true in
  search_results_df w = Some catalogue
  ∧ result (get_embedding (description_input f) w) = None
  ∧ search_results_df (final (run_script f w)) = None
  ∧ filter (fun e => is_display e = true) (events (run_script f w)) = [].
Proof.
  split; [reflexivity|]. split; [reflexivity|].
  apply (results_cleared_first (submit (lit "AI startup") [])
           (stale false true));
    reflexivity.
Defined.

Lemma industries_kept_in_order_witness :
  join COMMA [lit "AI"; lit " AI"] = lit "AI, AI"
  ∧ parse_industries (lit "AI, AI") = [lit "AI"; lit "AI"]
  ∧ length (filter (fun x => x = lit "AI") (parse_industries (lit "AI, AI")))
    = 2%nat
  ∧ ∃ st rest,
      queries (events (run_script (submit (lit "AI startup") (lit "AI, AI"))
                         (fresh true true)))
      = [VectorSearch st :: rest]
      ∧ ss_filter st !! "industry" = Some (FieldIn [lit "AI"; lit "AI"]).
Proof.
  split; [reflexivity|].
  pose proof (industries_kept_in_order [lit "AI"; lit " AI"] (lit "AI")
                (lit "AI startup") 1000 10000 true (fresh true true))
    as Hthm.
  destruct Hthm as (Hlist & Hcount & _ & Hsent).
  - done.
  - repeat constructor; vm_compute; intros Hin;
      repeat (apply elem_of_cons in Hin as [Hin|Hin]; [discriminate Hin|]);
      by apply elem_of_nil in Hin.
  - done.
  - split; [exact Hlist|]. split; [exact Hcount|].
    apply (Hsent ltac:(vm_compute; discriminate) [10]);
      [reflexivity | vm_compute; discriminate | reflexivity | discriminate].
Defined.

End DemoRuns.

(** ** More on the text helpers *)

Section MoreText.

Implicit Types (s p t : pystr).

Lemma join_cons_cons sep p q qs :
  join sep (p :: q :: qs) = p ++ sep :: join sep (q :: qs).
Proof. reflexivity. Qed.

Lemma join_split sep s : join sep (split sep s) = s.
Proof.
  induction s as [|c s IH]; [done|]. simpl.
  pose proof (split_not_nil sep s) as Hne.
  destruct (split sep s) as [|q qs]; [done|].
  destruct (c =? sep)%N eqn:Hc.
  - apply N.eqb_eq in Hc as ->. by rewrite join_cons_cons, IH.
  - destruct qs as [|q' qs]; simpl in *; by rewrite <- IH.
Qed.

Lemma split_pieces_no_sep sep s : Forall (fun p => sep ∉ p) (split sep s).
Proof.
  induction s as [|c s IH]; simpl.
  - repeat constructor. apply not_elem_of_nil.
  - destruct (N.eqb_spec c sep) as [->|Hc].
    + constructor; [apply not_elem_of_nil|done].
    + destruct (split sep s) as [|q qs]; simpl.
      * repeat constructor. rewrite elem_of_cons.
        intros [?|Hin]; [congruence|]. by apply elem_of_nil in Hin.
      * apply Forall_cons in IH as [Hq Hqs]. constructor; [|done].
        rewrite elem_of_cons. intros [?|?]; [congruence|done].
Qed.

Lemma split_length sep s :
  length (split sep s) = S (length (filter (fun c => c = sep) s)).
Proof.
  induction s as [|c s IH]; [done|]. simpl. rewrite filter_cons.
  destruct (N.eqb_spec c sep) as [->|Hc].
  - rewrite decide_True by done. simpl. by rewrite IH.
  - rewrite decide_False by done.
    destruct (split sep s) as [|q qs]; simpl in *; [done|exact IH].
Qed.

(** A piece of a joined text is a contiguous part of it. *)
Lemma join_piece sep pieces p :
  p ∈ pieces → ∃ l r, join sep pieces = l ++ p ++ r.
Proof.
  induction pieces as [|q qs IH]; intros Hin; [by apply elem_of_nil in Hin|].
  apply elem_of_cons in Hin as [->|Hin].
  - destruct qs as [|q' qs].
    + exists [], []. simpl. by rewrite app_nil_r.
    + exists [], (sep :: join sep (q' :: qs)). by rewrite join_cons_cons.
  - destruct (IH Hin) as (l & r & Heq).
    destruct qs as [|q' qs]; [by apply elem_of_nil in Hin|].
    exists (q ++ sep :: l), r. rewrite join_cons_cons, Heq.
    by rewrite <- app_assoc.
Qed.

Lemma lstrip_suffix s : ∃ l, s = l ++ lstrip s.
Proof.
  induction s as [|c s [l IH]]; [by exists []|]. simpl.
  destruct (isspace c); [|by exists []].
  exists (c :: l). simpl. by rewrite <- IH.
Qed.

Lemma rstrip_prefix s : ∃ r, s = rstrip s ++ r.
Proof.
  unfold rstrip. destruct (lstrip_suffix (rev s)) as [l Hl].
  exists (rev l). rewrite <- rev_app_distr, <- Hl. by rewrite rev_involutive.
Qed.

Lemma strip_infix s : ∃ l r, s = l ++ strip s ++ r.
Proof.
  unfold strip. destruct (lstrip_suffix s) as [l Hl].
  destruct (rstrip_prefix (lstrip s)) as [r Hr].
  exists l, r. by rewrite <- Hr.
Qed.

Lemma lstrip_nil_iff s : lstrip s = [] ↔ blank s = true.
Proof.
  unfold blank. induction s as [|c s IH]; simpl; [done|].
  destruct (isspace c); simpl; [exact IH|]. split; [done|discriminate].
Qed.

Lemma lstrip_blank_rev s : blank s = true → blank (rev s) = true.
Proof.
  unfold blank. rewrite !forallb_forall. intros Hs c Hc.
  apply Hs. by apply in_rev.
Qed.

Lemma lstrip_head s c s' : lstrip s = c :: s' → isspace c = false.
Proof.
  induction s as [|a s IH]; simpl; [done|].
  destruct (isspace a) eqn:Ha; [exact IH|]. by intros [= <- _].
Qed.

(** A text strips to nothing exactly when it is all whitespace. *)
Lemma strip_nil_iff s : strip s = [] ↔ blank s = true.
Proof.
  unfold strip, rstrip. split.
  - intros Hs. apply lstrip_nil_iff.
    destruct (lstrip s) as [|c s'] eqn:Hl; [done|].
    apply lstrip_head in Hl.
    assert (Hr : lstrip (rev (c :: s')) = []).
    { apply (f_equal (@rev N)) in Hs. by rewrite rev_involutive in Hs. }
    apply lstrip_nil_iff, lstrip_blank_rev in Hr.
    rewrite rev_involutive in Hr. unfold blank in Hr. simpl in Hr.
    by rewrite Hl in Hr.
  - intros Hb. apply lstrip_nil_iff in Hb. by rewrite Hb.
Qed.

Lemma parse_industries_nil_iff s :
  parse_industries s = [] ↔ forallb blank (split COMMA s) = true.
Proof.
  rewrite parse_industries_refines. unfold parse_industries_spec.
  induction (split COMMA s) as [|p ps IH]; [done|].
  rewrite fmap_cons, filter_cons. simpl.
  destruct (decide (strip p ≠ [])) as [Hn|Hn].
  - split; [done|]. intros [Hb _]%andb_prop.
    by apply strip_nil_iff in Hb.
  - apply dec_stable in Hn. apply strip_nil_iff in Hn. by rewrite Hn.
Qed.

Lemma replace_newlines_spec t :
  (NEWLINE ∉ replace_newlines t)
  ∧ length (replace_newlines t) = length t
  ∧ (NEWLINE ∉ t → replace_newlines t = t).
Proof.
  unfold replace_newlines. split_and!.
  - induction t as [|c t IH]; simpl; [apply not_elem_of_nil|].
    rewrite elem_of_cons. intros [Hc|Hin]; [|done].
    destruct (N.eqb_spec c NEWLINE) as [->|Hne]; [discriminate Hc|congruence].
  - apply length_map.
  - induction t as [|c t IH]; simpl; [done|].
    rewrite not_elem_of_cons. intros [Hc Ht].
    destruct (N.eqb_spec c NEWLINE) as [->|_]; [done|]. by rewrite IH.
Qed.

(** X1: splitting a text at a separator and joining the pieces with it
    gives the text back; no piece contains the separator, and there is
    one piece more than there are separators in the text. *)
Theorem split_join_round_trip sep s :
  join sep (split sep s) = s
  ∧ Forall (fun p => sep ∉ p) (split sep s)
  ∧ length (split sep s) = S (length (filter (fun c => c = sep) s)).
Proof.
  split_and!;
    [apply join_split | apply split_pieces_no_sep | apply split_length].
Qed.

(** X2: every industry term the handler keeps is a contiguous part of
    the field as typed, and it contains no comma; there are never more
    terms than commas in the field plus one. *)
Theorem parsed_terms_come_from_field s :
  Forall (fun t => (COMMA ∉ t) ∧ ∃ l r, s = l ++ t ++ r) (parse_industries s)
  ∧ (length (parse_industries s)
     ≤ S (length (filter (fun c => c = COMMA) s)))%nat.
Proof.
  rewrite parse_industries_refines. unfold parse_industries_spec. split.
  - apply Forall_forall. intros t Ht.
    apply list_elem_of_filter in Ht as [_ Ht].
    apply list_elem_of_fmap in Ht as (p & -> & Hp).
    destruct (strip_infix p) as (l1 & r1 & Hstrip).
    split.
    + pose proof (split_pieces_no_sep COMMA s) as Hall.
      rewrite Forall_forall in Hall. specialize (Hall p Hp).
      intros Hin. apply Hall. rewrite Hstrip.
      rewrite !elem_of_app. auto.
    + destruct (join_piece COMMA _ _ Hp) as (l2 & r2 & Hjoin).
      rewrite join_split in Hjoin.
      exists (l2 ++ l1), (r1 ++ r2). rewrite Hjoin at 1. rewrite Hstrip at 1.
      by rewrite <- !app_assoc.
  - rewrite <- split_length.
    etrans; [apply length_filter|]. by rewrite length_fmap.
Qed.

End MoreText.

(** ** More on the runs of the page *)

Section MoreRuns.
Context `{Services}.

Implicit Types (w : world) (f : form) (t : pystr).

Local Arguments replace_newlines : simpl never.
Local Arguments parse_industries : simpl never.
Local Arguments build_pipeline : simpl never.
Local Arguments lit : simpl never.

(** After a submitted run the description is a key of the cache, and the
    value under it is what [get_embedding] returned. *)
Lemma run_script_caches_result f w :
  submit_button f = true → description_input f ≠ [] →
  embedding_cache (final (run_script f w)) !! description_input f
  = Some (result (get_embedding (description_input f) w)).
Proof.
  intros Hsb Hd. rewrite (run_script_submit f w Hsb Hd).
  pose proof (get_embedding_stores (description_input f) w) as Hst.
  destruct (get_embedding (description_input f) w) as [[qv w1] ev1].
  unfold final, result in *. simpl in *.
  destruct (truthy_opt qv) eqn:Hqv; [|exact Hst].
  destruct qv as [qv|]; [|done]. unfold vector_search.
  destruct (collection_aggregate _ _) as [[rows| |] r2]; exact Hst.
Qed.

(** A run whose description is cached as a failure. *)
Lemma run_script_cached_failure f w :
  submit_button f = true → description_input f ≠ [] →
  embedding_cache w !! description_input f = Some None →
  run_script f w
  = (tt, World None (embedding_cache w) (services w),
     [Assign None; StError OpenAIError]).
Proof.
  intros Hsb Hd Hc. rewrite (run_script_submit f w Hsb Hd).
  unfold get_embedding. rewrite Hc. by destruct w.
Qed.

(** A run whose description is cached with a vector. *)
Lemma run_script_cached_vector f w qv :
  submit_button f = true → description_input f ≠ [] →
  embedding_cache w !! description_input f = Some (Some qv) → qv ≠ [] →
  embedding_inputs (events (run_script f w)) = []
  ∧ queries (events (run_script f w))
    = [build_pipeline qv (candidates_input f) (limit_input f)
         (parse_industries (industry_input f))].
Proof.
  intros Hsb Hd Hc Hqv. rewrite (run_script_submit f w Hsb Hd).
  unfold get_embedding. rewrite Hc. destruct qv as [|x qv]; [done|].
  simpl. unfold vector_search.
  destruct (collection_aggregate _ _) as [[[|row rows]| |] r2]; done.
Qed.

(** The page part of a run in which the button was not pressed: the
    search logic is skipped and the display shows the stored state. *)
Lemma run_script_without_submit f w :
  submit_button f = false →
  run_script f w = (tt, w, shown_for (search_results_df w)).
Proof.
  destruct f as [d ind lim cand sb], w as [s c r]. simpl. intros ->.
  unfold_run. simpl. by destruct s as [[|row rows]|].
Qed.

(** X4: when the embedding is a non-empty vector and the query returns,
    the run stores exactly the returned records, in the order the
    database gave them, and shows them (or the notice when there are
    none); besides what get_embedding did, the run sends that one query
    and makes that one assignment after the initial clearing. *)
Theorem successful_search_stored_and_shown f w qv rows :
  submit_button f = true →
  description_input f ≠ [] →
  result (get_embedding (description_input f) w) = Some qv →
  qv ≠ [] →
  (collection_aggregate
     (services (final (get_embedding (description_input f) w)))
     (build_pipeline qv (candidates_input f) (limit_input f)
        (parse_industries (industry_input f)))).1 = Returned rows →
  search_results_df (final (run_script f w)) = Some rows
  ∧ events (run_script f w)
    = Assign None :: events (get_embedding (description_input f) w)
      ++ [AggregateRequest
            (build_pipeline qv (candidates_input f) (limit_input f)
               (parse_industries (industry_input f)));
          Assign (Some rows)]
      ++ shown_for (Some rows).
Proof.
  intros Hsb Hd Hemb Hqv Hagg. rewrite (run_script_submit f w Hsb Hd).
  destruct (get_embedding (description_input f) w) as [[q w1] ev1].
  unfold result, final, events in *. simpl in *. subst q.
  destruct qv as [|x qv]; [done|]. simpl. unfold vector_search.
  destruct (collection_aggregate _ _) as [[rows'| |] r2];
    simpl in Hagg; simplify_eq.
  by destruct rows.
Qed.

(** X5: whatever text is sent to the embedding provider has no newline
    in it and is as long as the description typed; a description
    without newlines is sent as it is. *)
Theorem provider_input_normalised f w :
  Forall (fun t => (NEWLINE ∉ t)
                   ∧ length t = length (description_input f)
                   ∧ (NEWLINE ∉ description_input f → t = description_input f))
         (embedding_inputs (events (run_script f w))).
Proof.
  destruct (run_script_embedding_inputs f w) as [->| ->]; repeat constructor;
    apply replace_newlines_spec.
Qed.

(** X6: a failed embedding is cached like any other value: once
    get_embedding has returned None for a description, a later
    submission of the same description, whatever ran in between, does
    not ask the provider again; it shows the OpenAI error, sends no
    query and leaves the result state None. *)
Theorem failed_embedding_is_not_retried f1 mid f2 w :
  submit_button f1 = true →
  description_input f1 ≠ [] →
  result (get_embedding (description_input f1) w) = None →
  submit_button f2 = true →
  description_input f2 = description_input f1 →
  run_script f2 (final (run_session mid (final (run_script f1 w))))
  = (tt,
     World None
       (embedding_cache (final (run_session mid (final (run_script f1 w)))))
       (services (final (run_session mid (final (run_script f1 w))))),
     [Assign None; StError OpenAIError]).
Proof.
  intros Hsb1 Hd Hemb Hsb2 Hsame.
  apply run_script_cached_failure; [done|congruence|].
  rewrite Hsame.
  pose proof (run_script_caches_result f1 w Hsb1 Hd) as Hc.
  rewrite Hemb in Hc.
  rewrite run_session_cache_kept; [done|]. by rewrite Hc.
Qed.

(** X7: the vector cached for a description is the one searched with
    later: after a submission whose embedding was the non-empty vector
    qv, a later submission of the same description sends no request to
    the provider, and its query is built from qv and from the numbers
    and industries of the later form. *)
Theorem cached_embedding_is_reused f1 mid f2 w qv :
  submit_button f1 = true →
  description_input f1 ≠ [] →
  result (get_embedding (description_input f1) w) = Some qv →
  qv ≠ [] →
  submit_button f2 = true →
  description_input f2 = description_input f1 →
  embedding_inputs
    (events (run_script f2 (final (run_session mid (final (run_script f1 w))))))
  = []
  ∧ queries
      (events (run_script f2 (final (run_session mid (final (run_script f1 w))))))
    = [build_pipeline qv (candidates_input f2) (limit_input f2)
         (parse_industries (industry_input f2))].
Proof.
  intros Hsb1 Hd Hemb Hqv Hsb2 Hsame.
  apply run_script_cached_vector; [done|congruence| |done].
  rewrite Hsame.
  pose proof (run_script_caches_result f1 w Hsb1 Hd) as Hc.
  rewrite Hemb in Hc.
  rewrite run_session_cache_kept; [done|]. by rewrite Hc.
Qed.

(** X8: an embedding that is an empty list counts as no embedding, and
    silently: no query is sent, the result state stays None, and beyond
    what get_embedding itself did the run puts nothing on the page, in
    particular no error and no warning. *)
Theorem empty_vector_is_dropped_silently f w :
  submit_button f = true →
  description_input f ≠ [] →
  result (get_embedding (description_input f) w) = Some [] →
  search_results_df (final (run_script f w)) = None
  ∧ events (run_script f w)
    = Assign None :: events (get_embedding (description_input f) w)
  ∧ Forall (fun e => is_error e = false ∧ is_warning e = false
                     ∧ is_display e = false)
           (events (run_script f w))
  ∧ queries (events (run_script f w)) = [].
Proof.
  intros Hsb Hd Hemb. rewrite (run_script_submit f w Hsb Hd).
  revert Hemb. destruct w as [s c r]. unfold get_embedding, get_embedding_body.
  unfold result, final, events. simpl.
  destruct (c !! description_input f) as [[v|]|]; simpl.
  - intros [= ->]. simpl. repeat constructor.
  - intros [=].
  - destruct (embeddings_create _ _ _) as [[v|] r1]; simpl; intros [= ->].
    simpl. repeat constructor.
Qed.

(** X9: after a submission the result state is None exactly when no
    query was sent to the database: every query, returned or raised,
    ends in a stored frame, and no frame is stored without a query. *)
Theorem result_state_set_iff_query_sent f w :
  submit_button f = true →
  search_results_df (final (run_script f w)) = None
  ↔ queries (events (run_script f w)) = [].
Proof.
  destruct f as [d ind lim cand sb], w as [s c r]. simpl. intros ->.
  destruct d as [|ch d]; run_cases; done.
Qed.

(** X10: the embedding cache only grows: a run keeps every entry as it
    is, and the only key it can add is the description submitted. *)
Theorem cache_only_grows f w :
  embedding_cache w ⊆ embedding_cache (final (run_script f w))
  ∧ dom (embedding_cache (final (run_script f w)))
    ⊆ dom (embedding_cache w) ∪ {[ description_input f ]}.
Proof.
  destruct f as [d ind lim cand sb], w as [s c r]. simpl.
  destruct sb, d as [|ch d]; run_cases;
    first [ by (split; [done|apply union_subseteq_l])
          | split;
            [ by apply insert_subseteq
            | rewrite dom_insert_L;
              apply union_least; [apply union_subseteq_r|apply union_subseteq_l] ] ].
Qed.

Lemma search_filter_dom inds :
  dom (search_filter inds)
  = if truthy inds
    then ({[ "company_headquarters_country"; "industry" ]} : gset string)
    else {[ "company_headquarters_country" ]}.
Proof.
  unfold search_filter, unpack_into. destruct (truthy inds).
  - rewrite dom_union_L, !dom_singleton_L. apply (comm_L (∪)).
  - by rewrite (left_id_L ∅ (∪)), dom_singleton_L.
Qed.

Lemma built_filter_dom f qv :
  dom (ss_filter (build_search_stage qv (candidates_input f) (limit_input f)
                    (parse_industries (industry_input f))))
  = if forallb blank (split COMMA (industry_input f))
    then ({[ "company_headquarters_country" ]} : gset string)
    else {[ "company_headquarters_country"; "industry" ]}.
Proof.
  simpl. rewrite search_filter_dom.
  pose proof (parse_industries_nil_iff (industry_input f)) as Hnil.
  destruct (forallb blank _).
  - by rewrite (proj2 Hnil eq_refl).
  - destruct (parse_industries (industry_input f)) as [|t ts] eqn:Hp; [|done].
    by destruct Hnil as [Hnil _]; specialize (Hnil eq_refl).
Qed.

(** X11: every query of a run is a pipeline that opens with a stage
    whose filter has the country condition and nothing else, except for
    the industry condition, which is there exactly when some
    comma-separated piece of the industry field has a character that is
    not whitespace; and a submission whose embedding is a non-empty
    vector does send one such query. *)
Theorem filter_keys f w :
  Forall (opens_with (fun st =>
            dom (ss_filter st)
            = if forallb blank (split COMMA (industry_input f))
              then ({[ "company_headquarters_country" ]} : gset string)
              else {[ "company_headquarters_country"; "industry" ]}))
         (queries (events (run_script f w)))
  ∧ (∀ qv,
       submit_button f = true →
       description_input f ≠ [] →
       result (get_embedding (description_input f) w) = Some qv →
       qv ≠ [] →
       ∃ st rest,
         queries (events (run_script f w)) = [VectorSearch st :: rest]
         ∧ dom (ss_filter st)
           = if forallb blank (split COMMA (industry_input f))
             then ({[ "company_headquarters_country" ]} : gset string)
             else {[ "company_headquarters_country"; "industry" ]}).
Proof.
  split.
  - apply run_script_queries_open. intros qv. apply built_filter_dom.
  - intros qv Hsb Hd Hemb Hqv.
    rewrite (run_script_sends_query f w qv Hsb Hd Hemb Hqv).
    eexists _, _. split; [reflexivity|]. apply built_filter_dom.
Qed.

End MoreRuns.

(** ** Start-up and the session state *)

Ltac script_cases p f :=
  unfold script, get_mongo_client, run_ending, run_process, run_events in *;
  simpl in *;
  destruct (openai_client_init (outside p)) as [[|] ?r] eqn:?; simpl in *;
  [ destruct (client_cached p) eqn:?; simpl in *;
    [ | match goal with
        | |- context [mongo_connect ?r0] =>
            destruct (mongo_connect r0) as [[| |] ?r] eqn:?; simpl in *
        end ]
  | ];
  try match goal with
      | |- context [run_script f ?w0] =>
          destruct (run_script f w0) as [[? ?w] ?page] eqn:?; simpl in *
      end.

Section StartupFacts.
Context `{Platform}.

Implicit Types (p : process) (f : form).

Lemma filter_page_map (evs : list event) :
  filter (fun e => is_page e = true) (map Page evs) = map Page evs.
Proof.
  induction evs as [|e evs IH]; [done|]. simpl.
  rewrite filter_cons. simpl. by rewrite IH.
Qed.

Lemma filter_map_page_none (P : script_event → bool) (evs : list event) :
  (∀ e, P (Page e) = false) →
  filter (fun e => P e = true) (map Page evs) = [].
Proof.
  intros HP. induction evs as [|e evs IH]; [done|]. simpl.
  rewrite filter_cons. rewrite decide_False; [done|].
  rewrite HP. discriminate.
Qed.

Lemma init_session_state_stored ss :
  init_session_state ss !! RESULTS_KEY = Some (stored_results ss).
Proof.
  unfold init_session_state, stored_results.
  destruct (ss !! RESULTS_KEY) as [v|] eqn:Hk; simpl; [done|].
  apply lookup_insert_eq.
Qed.

Lemma init_session_state_other ss k :
  k ≠ RESULTS_KEY → init_session_state ss !! k = ss !! k.
Proof.
  intros Hk. unfold init_session_state.
  destruct (ss !! RESULTS_KEY); [done|]. by rewrite lookup_insert_ne.
Qed.

Lemma page_events_map (evs : list event) : page_events (map Page evs) = evs.
Proof. induction evs as [|e evs IH]; [done|]. simpl. by rewrite IH. Qed.

Lemma shown_for_sends_nothing (v : option (list document)) :
  embedding_inputs (shown_for v) = [] ∧ queries (shown_for v) = [].
Proof. by destruct v as [[|row rows]|]. Qed.

(** X3: a run of the whole script in which the button was not pressed
    does nothing of the page but show again what the stored results call
    for (nothing at all when the run is cut short at start-up): it sends
    no request to the embedding provider or the database and assigns
    nothing, and the embedding cache and the stored results are as
    before.  Start-up is not part of this: it may still try the
    connection and put the results key into the session state. *)
Theorem rerun_without_submit f p :
  submit_button f = false →
  page_events (run_events (script f p))
  = match run_ending (script f p) with
    | Finished => shown_for (stored_results (session_state p))
    | Stopped => []
    end
  ∧ embedding_inputs (page_events (run_events (script f p))) = []
  ∧ queries (page_events (run_events (script f p))) = []
  ∧ data_cache (run_process (script f p)) = data_cache p
  ∧ stored_results (session_state (run_process (script f p)))
    = stored_results (session_state p).
Proof.
  intros Hsb.
  assert (Hstored : stored_results (init_session_state (session_state p))
                    = stored_results (session_state p)).
  { unfold stored_results at 1. by rewrite init_session_state_stored. }
  pose proof (shown_for_sends_nothing (stored_results (session_state p)))
    as [Hemb Hq].
  script_cases p f; try done;
    rewrite (run_script_without_submit f _ Hsb) in *; simplify_eq; simpl;
    rewrite page_events_map, Hstored;
    (split_and!; [done..|]);
    unfold stored_results at 1; by rewrite lookup_insert_eq.
Qed.

(** X13: a run is cut short exactly when it shows a start-up error, and
    a run cut short does nothing of the page: it shows no page element,
    sends nothing to the provider or the database, leaves the embedding
    cache as it was and the session state as its initialisation left
    it. *)
Theorem stopped_run_is_inert f p :
  (run_ending (script f p) = Stopped
   ↔ filter (fun e => is_startup_error e = true) (run_events (script f p)) ≠ [])
  ∧ (run_ending (script f p) = Stopped →
     filter (fun e => is_page e = true) (run_events (script f p)) = []
     ∧ data_cache (run_process (script f p)) = data_cache p
     ∧ session_state (run_process (script f p))
       = init_session_state (session_state p)).
Proof.
  script_cases p f; (split; [split; intros Hx; try done|intros Hx; try done]);
    exfalso; apply Hx; try (rewrite filter_cons; simpl);
    by apply filter_map_page_none.
Qed.

(** X14: when the OpenAI client cannot be built the run stops there:
    the one thing shown is that error, no connection to MongoDB is
    tried, and what is cached (embeddings, client) stays as it was. *)
Theorem openai_failure_stops_first f p :
  (openai_client_init (outside p)).1 = false →
  run_ending (script f p) = Stopped
  ∧ run_events (script f p) = [StartupError OpenAIInitError]
  ∧ client_cached (run_process (script f p)) = client_cached p
  ∧ data_cache (run_process (script f p)) = data_cache p.
Proof. intros Hinit. script_cases p f; done. Qed.

(** Without a cached client, a run whose OpenAI client is built goes on
    to try the connection. *)
Lemma script_connects_when_uncached f p :
  (openai_client_init (outside p)).1 = true →
  client_cached p = false →
  head (run_events (script f p)) = Some ConnectAttempt.
Proof. intros Hinit Hc. script_cases p f; done. Qed.

(** X15: when no client is cached and the connection raises, the run
    stops with the connection tried once and one error shown, the
    ConnectionFailure message for a ConnectionFailure and the other one
    for any other exception; no client is cached, so the next run whose
    OpenAI client is built tries the connection again. *)
Theorem mongo_failure_stops_and_is_retried f f' p :
  (openai_client_init (outside p)).1 = true →
  client_cached p = false →
  (mongo_connect (openai_client_init (outside p)).2).1 ≠ Connected →
  run_ending (script f p) = Stopped
  ∧ run_events (script f p)
    = [ConnectAttempt;
       StartupError
         (match (mongo_connect (openai_client_init (outside p)).2).1 with
          | RaisedConnectionFailure => MongoConnectionError
          | _ => MongoUnexpectedError
          end)]
  ∧ client_cached (run_process (script f p)) = false
  ∧ ((openai_client_init (outside (run_process (script f p)))).1 = true →
     head (run_events (script f' (run_process (script f p))))
     = Some ConnectAttempt).
Proof.
  intros Hinit Hcached Hconn.
  assert (Hc : client_cached (run_process (script f p)) = false).
  { script_cases p f; done. }
  split_and!; [| |exact Hc|].
  - script_cases p f; done.
  - script_cases p f; done.
  - intros Hinit'. by apply script_connects_when_uncached.
Qed.

(** The client, once cached, stays cached. *)
Lemma script_keeps_client f p :
  client_cached p = true →
  client_cached (run_process (script f p)) = true
  ∧ filter (fun e => is_connect e = true) (run_events (script f p)) = [].
Proof.
  intros Hc. script_cases p f; try done.
  split; [done|]. by apply filter_map_page_none.
Qed.

Lemma script_finished_caches_client f p :
  run_ending (script f p) = Finished →
  client_cached (run_process (script f p)) = true.
Proof. intros He. script_cases p f; done. Qed.

Lemma script_session_keeps_client fs p :
  client_cached p = true →
  Forall (fun x => filter (fun e => is_connect e = true) x.2 = [])
         (script_session fs p).2.
Proof.
  revert p. induction fs as [|f fs IH]; intros p Hc; [constructor|].
  simpl. destruct (script_keeps_client f p Hc) as [Hc1 Hno].
  destruct (script f p) as [[e p1] evs].
  unfold run_process, run_events in *. simpl in *.
  specialize (IH p1 Hc1).
  destruct (script_session fs p1) as [p2 rest]. simpl in *.
  by constructor.
Qed.

(** X16: the connection to MongoDB is made once per process: after a
    run that reached the end of the script, no later run of the process
    tries to connect again, whatever is submitted and however those
    runs end. *)
Theorem connects_once f fs p :
  run_ending (script f p) = Finished →
  Forall (fun x => filter (fun e => is_connect e = true) x.2 = [])
         (script_session fs (run_process (script f p))).2.
Proof.
  intros He. apply script_session_keeps_client.
  by apply script_finished_caches_client.
Qed.

(** X17: the session state always has the results key after a run, and
    no run touches another key.  The stored results survive every run
    that is cut short and every run in which the button was not
    pressed; such a run that reaches the end shows the stored results
    again and nothing else of the page. *)
Theorem stored_results_survive f p :
  is_Some (session_state (run_process (script f p)) !! RESULTS_KEY)
  ∧ (∀ k, k ≠ RESULTS_KEY →
          session_state (run_process (script f p)) !! k = session_state p !! k)
  ∧ (run_ending (script f p) = Stopped ∨ submit_button f = false →
     stored_results (session_state (run_process (script f p)))
     = stored_results (session_state p))
  ∧ (run_ending (script f p) = Finished → submit_button f = false →
     filter (fun e => is_page e = true) (run_events (script f p))
     = map Page (shown_for (stored_results (session_state p)))).
Proof.
  assert (Hstored : stored_results (init_session_state (session_state p))
                    = stored_results (session_state p)).
  { unfold stored_results at 1. by rewrite init_session_state_stored. }
  assert (Hrerun : submit_button f = false → ∀ w,
            run_script f w = (tt, w, shown_for (search_results_df w))).
  { intros Hsb w. destruct f as [d ind lim cand sb], w as [s c r].
    simpl in Hsb. subst sb. unfold_run. simpl.
    by destruct s as [[|row rows]|]. }
  split_and!.
  - script_cases p f;
      first [ by rewrite init_session_state_stored
            | by rewrite lookup_insert_eq ].
  - intros k Hk. script_cases p f;
      first [ by apply init_session_state_other
            | by rewrite lookup_insert_ne, init_session_state_other ].
  - intros [He|Hsb].
    + script_cases p f; done.
    + script_cases p f; try done;
        rewrite (Hrerun Hsb) in *; simplify_eq; simpl;
        unfold stored_results at 1; by rewrite lookup_insert_eq.
  - intros He Hsb.
    script_cases p f; try done;
      rewrite (Hrerun Hsb) in *; simplify_eq; simpl;
      try (rewrite filter_cons; simpl);
      by rewrite filter_page_map, Hstored.
Qed.

End StartupFacts.

(** ** Further runs on explicit inputs *)

Module DemoMore.
Import Demo.

Lemma successful_search_stored_and_shown_witness :
  let f := submit (lit "AI startup") (lit "AI") in
  result (get_embedding (H := services) (description_input f) (fresh true true))
  = Some [10]
  ∧ search_results_df (final (run_script (H := services) f (fresh true true)))
    = Some catalogue.
Proof.
  split; [reflexivity|].
  apply (successful_search_stored_and_shown (H := services)
           (submit (lit "AI startup") (lit "AI")) (fresh true true)
           [10] catalogue);
    [reflexivity | vm_compute; discriminate | reflexivity
    | discriminate | reflexivity].
Defined.

Lemma failed_embedding_is_not_retried_witness :
  let f := submit (lit "AI startup") [] in
  let g := submit (lit "robots") [] in
  let w := fresh false true in
  result (get_embedding (H := services) (description_input f) w) = None
  ∧ events (run_script (H := services) f
              (final (run_session [g] (final (run_script f w)))))
    = [Assign None; StError OpenAIError].
Proof.
  split; [reflexivity|].
  pose proof (failed_embedding_is_not_retried (H := services)
                (submit (lit "AI startup") [])
                [submit (lit "robots") []]
                (submit (lit "AI startup") []) (fresh false true)) as Hthm.
  rewrite Hthm; [reflexivity | reflexivity | vm_compute; discriminate
                | reflexivity | reflexivity | reflexivity].
Defined.

Lemma cached_embedding_is_reused_witness :
  let f := submit (lit "AI startup") [] in
  let g := Form (lit "AI startup") (lit "SaaS") 2 50 true in
  let w := fresh true true in
  embedding_inputs
    (events (run_script (H := services) g
               (final (run_session [] (final (run_script f w))))))
  = []
  ∧ queries
      (events (run_script (H := services) g
                 (final (run_session [] (final (run_script f w))))))
    = [build_pipeline (H := services) ([10] : list Z) 50 2 [lit "SaaS"]].
Proof.
  apply (cached_embedding_is_reused (H := services)
           (submit (lit "AI startup") []) []
           (Form (lit "AI startup") (lit "SaaS") 2 50 true)
           (fresh true true) [10]);
    [reflexivity | vm_compute; discriminate | reflexivity
    | discriminate | reflexivity | reflexivity].
Defined.

Lemma empty_vector_is_dropped_silently_witness :
  let f := submit (lit "AI startup") [] in
  result (get_embedding (H := Hollow.services) (description_input f)
            Hollow.fresh) = Some []
  ∧ search_results_df (final (run_script (H := Hollow.services) f Hollow.fresh))
    = None
  ∧ queries (events (run_script (H := Hollow.services) f Hollow.fresh)) = [].
Proof.
  split; [reflexivity|].
  pose proof (empty_vector_is_dropped_silently (H := Hollow.services)
                (submit (lit "AI startup") []) Hollow.fresh) as Hthm.
  destruct Hthm as (Hstate & _ & _ & Hq);
    [reflexivity | vm_compute; discriminate | reflexivity |].
  split; [exact Hstate|exact Hq].
Defined.

Lemma result_state_set_iff_query_sent_witness :
  let f := submit (lit "AI startup") [] in
  queries (events (run_script (H := services) f (fresh false true))) = []
  ∧ search_results_df (final (run_script (H := services) f (fresh false true)))
    = None.
Proof.
  split; [reflexivity|].
  apply (result_state_set_iff_query_sent (H := services)
           (submit (lit "AI startup") []) (fresh false true));
    reflexivity.
Defined.

Lemma filter_keys_witness :
  let f := submit (lit "AI startup") (lit " , ") in
  forallb blank (split COMMA (industry_input f)) = true
  ∧ ∃ st rest,
      queries (events (run_script (H := services) f (fresh true true)))
      = [VectorSearch st :: rest]
      ∧ dom (ss_filter st)
        = ({[ "company_headquarters_country" ]} : gset string).
Proof.
  split; [reflexivity|].
  pose proof (filter_keys (H := services)
                (submit (lit "AI startup") (lit " , ")) (fresh true true))
    as [_ Hsent].
  apply (Hsent [10]);
    [reflexivity | vm_compute; discriminate | reflexivity | discriminate].
Defined.

Lemma rerun_without_submit_witness :
  let p := run_process
             (script (H := DemoPlatform.platform) (submit (lit "AI") [])
                (DemoPlatform.started true true)) in
  stored_results (session_state p) = Some catalogue
  ∧ page_events
      (run_events (script (H := DemoPlatform.platform) DemoPlatform.untouched p))
    = [@StResults services catalogue]
  ∧ page_events
      (run_events
         (script (H := DemoPlatform.platform) DemoPlatform.untouched
            (DemoPlatform.started true true)))
    = [].
Proof.
  split; [reflexivity|]. split.
  - apply (rerun_without_submit (H := DemoPlatform.platform)
             DemoPlatform.untouched
             (run_process
                (script (H := DemoPlatform.platform) (submit (lit "AI") [])
                   (DemoPlatform.started true true)))).
    reflexivity.
  - reflexivity.
Defined.

Lemma openai_failure_stops_first_witness :
  let p := DemoPlatform.started false true in
  (openai_client_init (outside p)).1 = false
  ∧ run_events (script (H := DemoPlatform.platform) (submit (lit "AI") []) p)
    = [StartupError OpenAIInitError].
Proof.
  split; [reflexivity|].
  apply (openai_failure_stops_first (H := DemoPlatform.platform)
           (submit (lit "AI") []) (DemoPlatform.started false true)).
  reflexivity.
Defined.

Lemma mongo_failure_stops_and_is_retried_witness :
  let p := DemoPlatform.started true false in
  (mongo_connect (openai_client_init (outside p)).2).1 = RaisedConnectionFailure
  ∧ run_events (script (H := DemoPlatform.platform) (submit (lit "AI") []) p)
    = [ConnectAttempt; StartupError MongoConnectionError].
Proof.
  split; [reflexivity|].
  apply (mongo_failure_stops_and_is_retried (H := DemoPlatform.platform)
           (submit (lit "AI") []) (submit (lit "AI") [])
           (DemoPlatform.started true false));
    [reflexivity | reflexivity | discriminate].
Defined.

Lemma connects_once_witness :
  let p := DemoPlatform.started true true in
  let f := submit (lit "AI") [] in
  run_events (script (H := DemoPlatform.platform) f p) !! 0%nat
  = Some ConnectAttempt
  ∧ Forall (fun x => filter (fun e => is_connect e = true) x.2 = [])
           (script_session [f; DemoPlatform.untouched; f]
              (run_process (script (H := DemoPlatform.platform) f p))).2.
Proof.
  split; [reflexivity|].
  apply (connects_once (H := DemoPlatform.platform)
           (submit (lit "AI") [])
           [submit (lit "AI") []; DemoPlatform.untouched; submit (lit "AI") []]
           (DemoPlatform.started true true)).
  reflexivity.
Defined.

Lemma stored_results_survive_witness :
  let p := DemoPlatform.started true true in
  let p1 := run_process
              (script (H := DemoPlatform.platform) (submit (lit "AI") []) p) in
  stored_results p1.(session_state) = Some catalogue
  ∧ stored_results
      (session_state
         (run_process
            (script (H := DemoPlatform.platform) DemoPlatform.untouched p1)))
    = stored_results (session_state p1).
Proof.
  split; [reflexivity|].
  apply (stored_results_survive (H := DemoPlatform.platform)
           DemoPlatform.untouched
           (run_process
              (script (H := DemoPlatform.platform) (submit (lit "AI") [])
                 (DemoPlatform.started true true)))).
  right. reflexivity.
Defined.

Lemma stopped_run_is_inert_witness :
  let p := DemoPlatform.started true false in
  run_ending (script (H := DemoPlatform.platform) (submit (lit "AI") []) p)
  = Stopped
  ∧ data_cache
      (run_process
         (script (H := DemoPlatform.platform) (submit (lit "AI") []) p))
    = data_cache p.
Proof.
  split; [reflexivity|].
  apply (stopped_run_is_inert (H := DemoPlatform.platform)
           (submit (lit "AI") []) (DemoPlatform.started true false)).
  reflexivity.
Defined.

End DemoMore.
